(** * Verification of [jules-scratch/verification/verify_agent_builder.py]

    The script drives a headless Chromium through one navigation, waits for
    a heading to be visible, stores one screenshot and closes the browser.
    Everything it does goes through the Playwright synchronous API, so the
    development has two layers:

    - [Module Playwright]: the operations of the automation library that the
      script calls, as state transformers over a [world] (file system,
      process environment, the driver's browsers, contexts and pages) with a
      journal of what happened.  The library is not part of the repository:
      each operation follows its documented contract, including the default
      value of every keyword argument the script leaves out.  What the
      outside world answers (does Chromium start, what does a URL serve, is a
      path writable) is an oracle, [env].
    - [run], [main] and [script]: the script itself, statement by statement.
*)

From Stdlib Require Import Strings.String Strings.Ascii Strings.Byte Lists.List ZArith Lia Bool.
From stdpp Require Import base option list strings gmap.

Local Open Scope string_scope.
Local Open Scope Z_scope.

(** ** Outcomes: a Python call returns a value or raises *)

Inductive error : Type :=
| DriverError
| LaunchError
| TargetClosed
| NavigationError
| AssertionTimeout
| StrictModeViolation (matches : nat)
| IOError.

Inductive outcome (A : Type) : Type :=
| Return (a : A)
| Raise (e : error).

Arguments Return {A} a.
Arguments Raise {A} e.

(** ** Pages as the locator and the screenshot see them *)

(** [visible_at] is the time, in milliseconds after the load, from which the
    element is visible; [None] when it never is. *)
Record element : Type := Element {
  role : string;
  accessible_name : string;
  visible_at : option nat
}.

Record document : Type := Document {
  elements : list element;
  viewport_pixels : list byte;
  full_page_pixels : list byte
}.

Definition about_blank : document :=
  {| elements := []; viewport_pixels := []; full_page_pixels := [] |}.

Abbreviation handle := nat (only parsing).

Inductive browser_type : Type := Chromium | Firefox | Webkit.

(** ** The outside world's answers *)

Record env : Type := Env {
  driver_starts : bool;
  launches : browser_type -> bool;
  context_opens : bool;
  page_opens : bool;
  site : string -> option document;
  writable : string -> bool
}.

(** ** Library calls and their observable effects *)

(** What [get_by_role(role, name=..., exact=...)] asks for; a keyword the
    caller leaves out is [None]. *)
Record role_query : Type := RoleQuery {
  q_role : string;
  q_name : option string;
  q_exact : option bool
}.

Record locator : Type := Locator {
  loc_page : handle;
  loc_query : role_query
}.

Record screenshot_args : Type := ScreenshotArgs {
  shot_path : option string;
  shot_full_page : option bool
}.

Inductive call : Type :=
| CStart
| CLaunch (bt : browser_type) (headless : bool)
| CNewContext (b : handle)
| CNewPage (c : handle)
| CGoto (p : handle) (url : string)
| CExpectVisible (l : locator) (timeout : option nat)
| CScreenshot (p : handle) (a : screenshot_args)
| CClose (b : handle)
| CStop.

Inductive event : Type :=
| Api (c : call)
| FileWritten (path : string)
| Spawned (b : handle)
| Exited (b : handle).

(** ** The state the script can touch *)

Record session : Type := Session {
  driver_up : bool;
  browsers : list handle;
  contexts : list (handle * handle);
  pages : list (handle * (handle * document));
  next_handle : handle
}.

Record world : Type := World {
  files : gmap string (list byte);
  environ : gmap string string;
  sess : session;
  journal : list event
}.

Definition idle : session :=
  {| driver_up := false; browsers := []; contexts := []; pages := [];
     next_handle := O |}.

Definition set_sess (s : session) (w : world) : world :=
  {| files := files w; environ := environ w; sess := s; journal := journal w |}.

Definition set_files (f : gmap string (list byte)) (w : world) : world :=
  {| files := f; environ := environ w; sess := sess w; journal := journal w |}.

Definition record (e : event) (w : world) : world :=
  {| files := files w; environ := environ w; sess := sess w;
     journal := journal w ++ [e] |}.

(** ** The program monad: state passing with exceptions *)

Definition prog (A : Type) : Type := world -> outcome A * world.

Definition ret {A} (a : A) : prog A := fun w => (Return a, w).

Definition raise {A} (e : error) : prog A := fun w => (Raise e, w).

Definition bind {A B} (m : prog A) (k : A -> prog B) : prog B :=
  fun w => match m w with
           | (Return a, w1) => k a w1
           | (Raise e, w1) => (Raise e, w1)
           end.

Definition seq {A B} (m : prog A) (k : prog B) : prog B := bind m (fun _ => k).

(** [ensuring fin body]: the exit half of a [with] block whose manager does
    not swallow exceptions.  [fin] runs whatever [body] did, and the outcome
    of [body] is what the block yields. *)
Definition ensuring {A} (fin : prog unit) (body : prog A) : prog A :=
  fun w => match body w with
           | (r, w1) => (r, snd (fin w1))
           end.

Definition modify (f : world -> world) : prog unit := fun w => (Return tt, f w).

Definition emit (e : event) : prog unit := modify (record e).

Declare Scope prog_scope.
Delimit Scope prog_scope with prog.
Notation "x <- m ;; k" := (bind m (fun x => k))
  (at level 100, m at next level, right associativity) : prog_scope.
Notation "m ;;; k" := (seq m k)
  (at level 100, right associativity) : prog_scope.

(** ** Strings: case folding and substring search *)

Definition upper_ascii (c : ascii) : ascii :=
  let n := nat_of_ascii c in
  if (Nat.leb 97 n && Nat.leb n 122)%bool then ascii_of_nat (n - 32) else c.

Fixpoint to_upper (s : string) : string :=
  match s with
  | EmptyString => EmptyString
  | String c t => String (upper_ascii c) (to_upper t)
  end.

Fixpoint starts_with (needle hay : string) : bool :=
  match needle, hay with
  | EmptyString, _ => true
  | String a n, String b h => (Ascii.eqb a b && starts_with n h)%bool
  | String _ _, EmptyString => false
  end.

Fixpoint includes (needle hay : string) : bool :=
  (starts_with needle hay ||
   match hay with
   | EmptyString => false
   | String _ h => includes needle h
   end)%bool.

(** ** PNG container *)

Definition png_signature : list byte :=
  [x89; x50; x4e; x47; x0d; x0a; x1a; x0a].

Definition png_encode (pixels : list byte) : list byte :=
  png_signature ++ pixels.

Module Playwright.

(** Default of [expect(...).to_be_visible(timeout=...)], in milliseconds. *)
Definition default_expect_timeout : nat := 5000%nat.

(** Default of [get_by_role(..., exact=...)]. *)
Definition default_exact : bool := false.

(** Default of [page.screenshot(full_page=...)]. *)
Definition default_full_page : bool := false.

(** [name=] of a role locator: with [exact] the accessible name is compared
    whole and case-sensitively, without it the query only has to occur in the
    name, letter case ignored. *)
Definition name_matches (exact : bool) (query actual : string) : bool :=
  if exact then String.eqb query actual
  else includes (to_upper query) (to_upper actual).

Definition query_matches (q : role_query) (e : element) : bool :=
  (String.eqb (q_role q) (role e) &&
   match q_name q with
   | None => true
   | Some n => name_matches (default default_exact (q_exact q)) n
                 (accessible_name e)
   end)%bool.

Definition resolve (q : role_query) (d : document) : list element :=
  List.filter (query_matches q) (elements d).

Definition visible_within (timeout : nat) (e : element) : bool :=
  match visible_at e with
  | Some t => Nat.leb t timeout
  | None => false
  end.

(** The verdict of a visibility assertion on what the locator resolved to.
    Locator assertions are strict: more than one element is an error, not a
    choice of the first. *)
Definition check_visible (timeout : nat) (found : list element)
  : option error :=
  match found with
  | [] => Some AssertionTimeout
  | [e] => if visible_within timeout e then None else Some AssertionTimeout
  | _ :: _ :: _ => Some (StrictModeViolation (List.length found))
  end.

Fixpoint lookup_page (p : handle) (ps : list (handle * (handle * document)))
  : option (handle * document) :=
  match ps with
  | [] => None
  | (q, v) :: rest => if Nat.eqb p q then Some v else lookup_page p rest
  end.

Fixpoint load_page (p : handle) (d : document)
  (ps : list (handle * (handle * document)))
  : list (handle * (handle * document)) :=
  match ps with
  | [] => []
  | (q, (c, old)) :: rest =>
      if Nat.eqb p q then (q, (c, d)) :: rest
      else (q, (c, old)) :: load_page p d rest
  end.

Definition owned_by (b : handle) (c : handle * handle) : bool :=
  Nat.eqb (snd c) b.

Definition context_alive (cs : list (handle * handle)) (c : handle) : bool :=
  existsb (fun x => Nat.eqb (fst x) c) cs.

Definition fresh (s : session) : session :=
  {| driver_up := driver_up s; browsers := browsers s;
     contexts := contexts s; pages := pages s;
     next_handle := S (next_handle s) |}.

Definition add_browser (b : handle) (s : session) : session :=
  {| driver_up := driver_up s; browsers := b :: browsers s;
     contexts := contexts s; pages := pages s;
     next_handle := next_handle s |}.

Definition add_context (c b : handle) (s : session) : session :=
  {| driver_up := driver_up s; browsers := browsers s;
     contexts := (c, b) :: contexts s; pages := pages s;
     next_handle := next_handle s |}.

Definition add_page (p c : handle) (s : session) : session :=
  {| driver_up := driver_up s; browsers := browsers s;
     contexts := contexts s; pages := (p, (c, about_blank)) :: pages s;
     next_handle := next_handle s |}.

Definition set_pages (ps : list (handle * (handle * document))) (s : session)
  : session :=
  {| driver_up := driver_up s; browsers := browsers s;
     contexts := contexts s; pages := ps;
     next_handle := next_handle s |}.

(** Closing a browser takes its contexts and their pages with it. *)
Definition drop_browser (b : handle) (s : session) : session :=
  let cs := List.filter (fun c => negb (owned_by b c)) (contexts s) in
  {| driver_up := driver_up s;
     browsers := List.filter (fun x => negb (Nat.eqb x b)) (browsers s);
     contexts := cs;
     pages := List.filter (fun p => context_alive cs (fst (snd p))) (pages s);
     next_handle := next_handle s |}.

(** Stopping the driver ends every browser it started. *)
Definition shut_down (s : session) : session :=
  {| driver_up := false; browsers := []; contexts := []; pages := [];
     next_handle := next_handle s |}.

(** A driver that has just started owns no browser yet. *)
Definition driver_on (s : session) : session :=
  {| driver_up := true; browsers := []; contexts := []; pages := [];
     next_handle := next_handle s |}.

Section Operations.

Variable E : env.

Local Open Scope prog_scope.

(** [sync_playwright().__enter__()] *)
Definition start : prog unit :=
  emit (Api CStart) ;;;
  if driver_starts E
  then modify (fun w => set_sess (driver_on (sess w)) w)
  else raise DriverError.

(** [sync_playwright().__exit__(...)]: returns a false value, so an exception
    of the block keeps propagating. *)
Definition stop : prog unit :=
  emit (Api CStop) ;;;
  fun w =>
    let gone := List.map Exited (browsers (sess w)) in
    (Return tt,
     {| files := files w; environ := environ w;
        sess := shut_down (sess w);
        journal := journal w ++ gone |}).

(** [browser_type.launch(headless=...)] *)
Definition launch (bt : browser_type) (headless : bool) : prog handle :=
  emit (Api (CLaunch bt headless)) ;;;
  fun w =>
    if (driver_up (sess w) && launches E bt)%bool
    then let b := next_handle (sess w) in
         (Return b,
          record (Spawned b) (set_sess (add_browser b (fresh (sess w))) w))
    else (Raise LaunchError, w).

(** [browser.new_context()] *)
Definition new_context (b : handle) : prog handle :=
  emit (Api (CNewContext b)) ;;;
  fun w =>
    if negb (existsb (Nat.eqb b) (browsers (sess w)))
    then (Raise TargetClosed, w)
    else if context_opens E
    then let c := next_handle (sess w) in
         (Return c, set_sess (add_context c b (fresh (sess w))) w)
    else (Raise LaunchError, w).

(** [context.new_page()] *)
Definition new_page (c : handle) : prog handle :=
  emit (Api (CNewPage c)) ;;;
  fun w =>
    if negb (context_alive (contexts (sess w)) c)
    then (Raise TargetClosed, w)
    else if page_opens E
    then let p := next_handle (sess w) in
         (Return p, set_sess (add_page p c (fresh (sess w))) w)
    else (Raise LaunchError, w).

(** [page.goto(url)] *)
Definition goto (p : handle) (url : string) : prog unit :=
  emit (Api (CGoto p url)) ;;;
  fun w =>
    match lookup_page p (pages (sess w)) with
    | None => (Raise TargetClosed, w)
    | Some _ =>
        match site E url with
        | None => (Raise NavigationError, w)
        | Some d =>
            (Return tt,
             set_sess (set_pages (load_page p d (pages (sess w))) (sess w)) w)
        end
    end.

(** [page.get_by_role(role, name=..., exact=...)]: builds the query, talks to
    nobody. *)
Definition get_by_role (p : handle) (r : string) (name : option string)
  (exact : option bool) : locator :=
  {| loc_page := p;
     loc_query := {| q_role := r; q_name := name; q_exact := exact |} |}.

(** [expect(locator).to_be_visible(timeout=...)]: the locator is strict. *)
Definition expect_to_be_visible (l : locator) (timeout : option nat)
  : prog unit :=
  emit (Api (CExpectVisible l timeout)) ;;;
  fun w =>
    match lookup_page (loc_page l) (pages (sess w)) with
    | None => (Raise TargetClosed, w)
    | Some (_, d) =>
        match check_visible (default default_expect_timeout timeout)
                (resolve (loc_query l) d) with
        | None => (Return tt, w)
        | Some e => (Raise e, w)
        end
    end.

(** [page.screenshot(path=..., full_page=...)] *)
Definition screenshot (p : handle) (a : screenshot_args)
  : prog (list byte) :=
  emit (Api (CScreenshot p a)) ;;;
  fun w =>
    match lookup_page p (pages (sess w)) with
    | None => (Raise TargetClosed, w)
    | Some (_, d) =>
        let image :=
          png_encode (if default default_full_page (shot_full_page a)
                      then full_page_pixels d else viewport_pixels d) in
        match shot_path a with
        | None => (Return image, w)
        | Some f =>
            if writable E f
            then (Return image,
                  record (FileWritten f)
                    (set_files (<[f := image]> (files w)) w))
            else (Raise IOError, w)
        end
    end.

(** [browser.close()] *)
Definition close (b : handle) : prog unit :=
  emit (Api (CClose b)) ;;;
  fun w =>
    if existsb (Nat.eqb b) (browsers (sess w))
    then (Return tt, record (Exited b) (set_sess (drop_browser b (sess w)) w))
    else (Return tt, w).

End Operations.

End Playwright.

(** ** The script *)

Definition target_url : string :=
  "http://localhost:3000/app/agent-build/clwz1a3y000001e5695sbe24q".

Definition heading_name : string := "AI Agent Build:".

Definition screenshot_path : string :=
  "jules-scratch/verification/agent_builder_page.png".

Section Script.

Variable E : env.

Local Open Scope prog_scope.

(** [def run(playwright)], lines 3 to 19. *)
Definition run (playwright : unit) : prog unit :=
  browser <- Playwright.launch E Chromium true ;;
  context <- Playwright.new_context E browser ;;
  page <- Playwright.new_page E context ;;
  Playwright.goto E page target_url ;;;
  let heading :=
    Playwright.get_by_role page "heading" (Some heading_name) None in
  Playwright.expect_to_be_visible heading None ;;;
  _ <- Playwright.screenshot E page
         {| shot_path := Some screenshot_path; shot_full_page := None |} ;;
  Playwright.close browser.

(** [with sync_playwright() as playwright: run(playwright)], lines 21, 22. *)
Definition main : prog unit :=
  playwright <- Playwright.start E ;;
  ensuring Playwright.stop (run playwright).

(** The interpreter's exit status: 0 when the module body completes, 1 when
    an exception reaches the top level. *)
Definition exit_code {A} (o : outcome A) : Z :=
  match o with
  | Return _ => 0
  | Raise _ => 1
  end.

Definition script (w : world) : Z * world :=
  let (o, w') := main w in (exit_code o, w').

(** What this run appended to the journal. *)
Definition trace (w : world) : list event :=
  drop (List.length (journal w)) (journal (snd (main w))).

End Script.

(** ** Reading a journal *)

Definition calls (j : list event) : list call :=
  flat_map (fun e => match e with Api c => [c] | _ => [] end) j.

Definition writes (j : list event) : list string :=
  flat_map (fun e => match e with FileWritten f => [f] | _ => [] end) j.

Definition spawned (j : list event) : list handle :=
  flat_map (fun e => match e with Spawned b => [b] | _ => [] end) j.

Definition exited (j : list event) : list handle :=
  flat_map (fun e => match e with Exited b => [b] | _ => [] end) j.

Definition is_screenshot (c : call) : bool :=
  match c with CScreenshot _ _ => true | _ => false end.

Definition is_close (c : call) : bool :=
  match c with CClose _ => true | _ => false end.

(** The query and the screenshot arguments exactly as lines 13 and 17 pass
    them. *)
Definition heading_query : role_query :=
  {| q_role := "heading"; q_name := Some heading_name; q_exact := None |}.

Definition shot_args : screenshot_args :=
  {| shot_path := Some screenshot_path; shot_full_page := None |}.

(** The calls of [run] in program order, for a run whose first fresh handle
    is [n]. *)
Definition plan (n : handle) : list call :=
  [ CLaunch Chromium true;
    CNewContext n;
    CNewPage (S n);
    CGoto (S (S n)) target_url;
    CExpectVisible {| loc_page := S (S n); loc_query := heading_query |} None;
    CScreenshot (S (S n)) shot_args;
    CClose n ].

(** The environment can provide a headless browser with a context and a
    page. *)
Definition browser_available (E : env) : bool :=
  (driver_starts E && launches E Chromium && context_opens E && page_opens E)%bool.

(** A closed session with every resource released; only the handle counter
    remembers that something ran. *)
Definition released (w : world) (used : nat) : session :=
  {| driver_up := false; browsers := []; contexts := []; pages := [];
     next_handle := (used + next_handle (sess w))%nat |}.

Definition after (w : world) (fs : gmap string (list byte)) (used : nat)
  (j : list event) : world :=
  {| files := fs; environ := environ w; sess := released w used;
     journal := journal w ++ j |}.

(** ** Concrete worlds and environments, for the examples *)

Definition empty_world : world :=
  {| files := ∅; environ := ∅; sess := idle; journal := [] |}.

Definition stale_world : world :=
  {| files := {[ screenshot_path := [x00; x01] ]};
     environ := {[ "HOME" := "/root" ]};
     sess := idle; journal := [] |}.

Definition main_heading : element :=
  {| role := "heading"; accessible_name := "AI Agent Build:";
     visible_at := Some 120%nat |}.

Definition long_heading : element :=
  {| role := "heading"; accessible_name := "AI Agent Build: Checkout Flow";
     visible_at := Some 120%nat |}.

Definition late_heading : element :=
  {| role := "heading"; accessible_name := "AI Agent Build:";
     visible_at := None |}.

Definition chat_box : element :=
  {| role := "textbox"; accessible_name := "Message"; visible_at := Some 0%nat |}.

Definition page_of (els : list element) : document :=
  {| elements := els; viewport_pixels := [x01; x02];
     full_page_pixels := [x01; x02; x03; x04] |}.

Definition serving (d : option document) (w : bool) : env :=
  {| driver_starts := true; launches := fun _ => true;
     context_opens := true; page_opens := true;
     site := fun url => if String.eqb url target_url then d else None;
     writable := fun _ => w |}.

Definition healthy : env := serving (Some (page_of [main_heading; chat_box])) true.
Definition offline : env := serving None true.
Definition spinner_only : env := serving (Some (page_of [late_heading; chat_box])) true.
Definition read_only : env := serving (Some (page_of [main_heading; chat_box])) false.
Definition long_title : env := serving (Some (page_of [long_heading; chat_box])) true.
Definition two_titles : env := serving (Some (page_of [main_heading; long_heading])) true.

(** ** [run] on its own *)

(** The state in which [run] is entered: the driver is up and owns nothing
    yet. *)
Definition clean_driver (w : world) : Prop :=
  driver_up (sess w) = true /\ browsers (sess w) = [] /\
  contexts (sess w) = [] /\ pages (sess w) = [].

(** What a call of [run] alone, outside the [with] block, appended to the
    journal. *)
Definition run_trace (E : env) (w : world) : list event :=
  drop (List.length (journal w)) (journal (snd (run E tt w))).

Definition started_world : world :=
  {| files := ∅; environ := ∅;
     sess := {| driver_up := true; browsers := []; contexts := [];
                pages := []; next_handle := 7 |};
     journal := [Api CStart] |}.

Definition no_driver : env :=
  {| driver_starts := false; launches := fun _ => true;
     context_opens := true; page_opens := true;
     site := fun _ => None; writable := fun _ => true |}.

(** * Proofs *)

(** ** Symbolic execution of the script *)

Ltac unfold_api :=
  unfold main, run, ensuring,
    Playwright.start, Playwright.stop, Playwright.launch,
    Playwright.new_context, Playwright.new_page, Playwright.goto,
    Playwright.expect_to_be_visible, Playwright.screenshot,
    Playwright.close, Playwright.get_by_role, emit, modify, raise, ret,
    seq, bind.

Ltac crunch w :=
  cbn -[Playwright.resolve Playwright.check_visible png_encode insert
        screenshot_path target_url heading_name];
  rewrite ?(Nat.eqb_refl (next_handle (sess w)));
  cbn -[Playwright.resolve Playwright.check_visible png_encode insert
        screenshot_path target_url heading_name].

Lemma browser_available_true E :
  browser_available E = true <->
  driver_starts E = true /\ launches E Chromium = true /\
  context_opens E = true /\ page_opens E = true.
Proof.
  unfold browser_available. rewrite !andb_true_iff. tauto.
Qed.

(** Every run takes one of eight paths, told apart by what the environment
    answers; each path fixes the outcome and the final world. *)
Lemma main_paths E w :
  let n := next_handle (sess w) in
  let p := S (S n) in
  let loc := {| loc_page := p; loc_query := heading_query |} in
  (driver_starts E = false /\
   main E w = (Raise DriverError, record (Api CStart) w))
  \/ (driver_starts E = true /\ launches E Chromium = false /\
      main E w =
      (Raise LaunchError,
       after w (files w) 0
         [Api CStart; Api (CLaunch Chromium true); Api CStop]))
  \/ (driver_starts E = true /\ launches E Chromium = true /\
      context_opens E = false /\
      main E w =
      (Raise LaunchError,
       after w (files w) 1
         [Api CStart; Api (CLaunch Chromium true); Spawned n;
          Api (CNewContext n); Api CStop; Exited n]))
  \/ (driver_starts E = true /\ launches E Chromium = true /\
      context_opens E = true /\ page_opens E = false /\
      main E w =
      (Raise LaunchError,
       after w (files w) 2
         [Api CStart; Api (CLaunch Chromium true); Spawned n;
          Api (CNewContext n); Api (CNewPage (S n)); Api CStop; Exited n]))
  \/ (browser_available E = true /\ site E target_url = None /\
      main E w =
      (Raise NavigationError,
       after w (files w) 3
         [Api CStart; Api (CLaunch Chromium true); Spawned n;
          Api (CNewContext n); Api (CNewPage (S n));
          Api (CGoto p target_url); Api CStop; Exited n]))
  \/ (exists d e,
      browser_available E = true /\ site E target_url = Some d /\
      Playwright.check_visible Playwright.default_expect_timeout
        (Playwright.resolve heading_query d) = Some e /\
      main E w =
      (Raise e,
       after w (files w) 3
         [Api CStart; Api (CLaunch Chromium true); Spawned n;
          Api (CNewContext n); Api (CNewPage (S n));
          Api (CGoto p target_url); Api (CExpectVisible loc None);
          Api CStop; Exited n]))
  \/ (exists d,
      browser_available E = true /\ site E target_url = Some d /\
      Playwright.check_visible Playwright.default_expect_timeout
        (Playwright.resolve heading_query d) = None /\
      writable E screenshot_path = false /\
      main E w =
      (Raise IOError,
       after w (files w) 3
         [Api CStart; Api (CLaunch Chromium true); Spawned n;
          Api (CNewContext n); Api (CNewPage (S n));
          Api (CGoto p target_url); Api (CExpectVisible loc None);
          Api (CScreenshot p shot_args); Api CStop; Exited n]))
  \/ (exists d,
      browser_available E = true /\ site E target_url = Some d /\
      Playwright.check_visible Playwright.default_expect_timeout
        (Playwright.resolve heading_query d) = None /\
      writable E screenshot_path = true /\
      main E w =
      (Return tt,
       after w
         (<[screenshot_path := png_encode (viewport_pixels d)]> (files w)) 3
         [Api CStart; Api (CLaunch Chromium true); Spawned n;
          Api (CNewContext n); Api (CNewPage (S n));
          Api (CGoto p target_url); Api (CExpectVisible loc None);
          Api (CScreenshot p shot_args); FileWritten screenshot_path;
          Api (CClose n); Exited n; Api CStop])).
Proof.
  intros n p loc. subst n p loc.
  unfold browser_available, after, released.
  unfold_api.
  destruct (driver_starts E) eqn:Hd; crunch w.
  2: { left. split; reflexivity. }
  right.
  destruct (launches E Chromium) eqn:Hl; crunch w.
  2: { left. repeat split; try assumption; rewrite <- ?app_assoc; reflexivity. }
  right.
  destruct (context_opens E) eqn:Hc; crunch w.
  2: { left. repeat split; try assumption; rewrite <- ?app_assoc; reflexivity. }
  right.
  destruct (page_opens E) eqn:Hp; crunch w.
  2: { left. repeat split; try assumption; rewrite <- ?app_assoc; reflexivity. }
  right.
  destruct (site E target_url) as [d|] eqn:Hs; crunch w.
  2: { left. repeat split; try assumption; rewrite <- ?app_assoc; reflexivity. }
  right.
  unfold Playwright.default_expect_timeout.
  fold heading_query.
  destruct (Playwright.check_visible 5000 (Playwright.resolve heading_query d))
    as [e|] eqn:Hv; crunch w.
  { left. exists d, e. repeat split; try assumption; rewrite <- ?app_assoc; reflexivity. }
  right.
  fold shot_args.
  destruct (writable E screenshot_path) eqn:Hw; crunch w.
  - right. exists d. repeat split; try assumption.
    unfold Playwright.shut_down, Playwright.drop_browser. crunch w.
    rewrite <- ?app_assoc. reflexivity.
  - left. exists d. repeat split; try assumption; rewrite <- ?app_assoc; reflexivity.
Qed.

(** ** Reading the outcome of a path *)

Lemma trace_after E w o fs k j :
  main E w = (o, after w fs k j) -> trace E w = j.
Proof.
  intros H. unfold trace. rewrite H. simpl. apply drop_app_length.
Qed.

Lemma trace_no_driver E w o :
  main E w = (o, record (Api CStart) w) -> trace E w = [Api CStart].
Proof.
  intros H. unfold trace. rewrite H. simpl. apply drop_app_length.
Qed.

Lemma script_main E w :
  script E w = (exit_code (fst (main E w)), snd (main E w)).
Proof.
  unfold script. destruct (main E w); reflexivity.
Qed.

Lemma png_encode_nonempty pixels : png_encode pixels <> [].
Proof.
  unfold png_encode, png_signature. discriminate.
Qed.

Lemma check_visible_single h :
  Playwright.visible_within Playwright.default_expect_timeout h = true ->
  Playwright.check_visible Playwright.default_expect_timeout [h] = None.
Proof.
  intros H. simpl. rewrite H. reflexivity.
Qed.

Lemma check_visible_passes t found :
  Playwright.check_visible t found = None ->
  exists h, found = [h] /\ Playwright.visible_within t h = true.
Proof.
  destruct found as [|h [|h' rest]]; simpl; try discriminate.
  destruct (Playwright.visible_within t h) eqn:Hv; try discriminate.
  intros _. exists h. split; [reflexivity | assumption].
Qed.

(** Splits a goal about [main E w] into the eight paths; in each, [Hm] is the
    equation of the run and [Ht] the journal it appended. *)
Ltac paths E w Hm Ht :=
  let d := fresh "d" in
  let e := fresh "e" in
  destruct (main_paths E w) as
    [ (? & Hm)
    | [ (? & ? & Hm)
    | [ (? & ? & ? & Hm)
    | [ (? & ? & ? & ? & Hm)
    | [ (? & ? & Hm)
    | [ (d & e & ? & ? & ? & Hm)
    | [ (d & ? & ? & ? & ? & Hm)
    | (d & ? & ? & ? & ? & Hm) ]]]]]]];
  [ pose proof (trace_no_driver E w _ Hm) as Ht
  | pose proof (trace_after E w _ _ _ _ Hm) as Ht ..];
  repeat match goal with
         | H : browser_available _ = true |- _ =>
             apply browser_available_true in H as (? & ? & ? & ?)
         end.

(** ** C1 *)

(** C1, as the code has it. A visible heading named "AI Agent Build:" is
    not enough: the query must resolve to that heading alone, and the output
    path must be writable.  When the environment provides the browser, the
    target serves a page on which the heading query resolves to exactly one
    heading, visible within the default wait window, and the output path can
    be written, the run exits with code 0 and leaves a non-empty image, the
    PNG of the viewport, at
    [jules-scratch/verification/agent_builder_page.png]. *)
Theorem success_exit_zero_and_image E w d h :
  browser_available E = true ->
  site E target_url = Some d ->
  Playwright.resolve heading_query d = [h] ->
  Playwright.visible_within Playwright.default_expect_timeout h = true ->
  writable E screenshot_path = true ->
  fst (script E w) = 0 /\
  exists img,
    files (snd (script E w)) !! screenshot_path = Some img /\
    img <> [] /\
    img = png_encode (viewport_pixels d).
Proof.
  intros Hb Hs Hr Hv Hw.
  apply browser_available_true in Hb as (Hd & Hl & Hc & Hp).
  assert (Hk : Playwright.check_visible Playwright.default_expect_timeout
                 (Playwright.resolve heading_query d) = None)
    by (rewrite Hr; apply check_visible_single; exact Hv).
  rewrite script_main.
  paths E w Hm Ht; try congruence.
  assert (d0 = d) by congruence. subst d0.
  rewrite Hm. simpl. split; [reflexivity|].
  exists (png_encode (viewport_pixels d)).
  split; [apply lookup_insert_eq|].
  split; [apply png_encode_nonempty | reflexivity].
Qed.

Lemma success_exit_zero_and_image_witness :
  fst (script healthy empty_world) = 0 /\
  exists img,
    files (snd (script healthy empty_world)) !! screenshot_path = Some img /\
    img <> [] /\
    img = png_encode [x01; x02].
Proof.
  apply (success_exit_zero_and_image healthy empty_world
           (page_of [main_heading; chat_box]) main_heading);
    reflexivity.
Defined.

(** Two reachable targets whose page exposes a heading named exactly
    "AI Agent Build:", visible after 120 ms, on which the run nevertheless
    exits with code 1 and leaves no image: on the first a second heading
    contains the queried name too, so the strict locator is ambiguous; on the
    second the output path cannot be written. *)
Lemma visible_heading_is_not_enough :
  (site two_titles target_url = Some (page_of [main_heading; long_heading]) /\
   In main_heading (elements (page_of [main_heading; long_heading])) /\
   role main_heading = "heading" /\
   accessible_name main_heading = "AI Agent Build:" /\
   Playwright.visible_within Playwright.default_expect_timeout main_heading
   = true /\
   fst (script two_titles empty_world) = 1 /\
   fst (main two_titles empty_world) = Raise (StrictModeViolation 2) /\
   files (snd (script two_titles empty_world)) !! screenshot_path = None)
  /\
  (site read_only target_url = Some (page_of [main_heading; chat_box]) /\
   Playwright.resolve heading_query (page_of [main_heading; chat_box]) =
   [main_heading] /\
   accessible_name main_heading = "AI Agent Build:" /\
   Playwright.visible_within Playwright.default_expect_timeout main_heading
   = true /\
   fst (script read_only empty_world) = 1 /\
   fst (main read_only empty_world) = Raise IOError /\
   files (snd (script read_only empty_world)) !! screenshot_path = None).
Proof.
  split.
  - repeat split; try reflexivity. left. reflexivity.
  - repeat split; reflexivity.
Qed.

(** ** C2 *)

(** Once the driver has started, the block's exit runs on every path: the
    final session holds no browser, context or page, the last call is the
    stop of the driver, and every browser the run spawned has exited. *)
Lemma started_run_is_released E w :
  driver_starts E = true ->
  browsers (sess (snd (main E w))) = [] /\
  contexts (sess (snd (main E w))) = [] /\
  pages (sess (snd (main E w))) = [] /\
  driver_up (sess (snd (main E w))) = false /\
  last (calls (trace E w)) = Some CStop /\
  spawned (trace E w) = exited (trace E w).
Proof.
  intros Hd.
  paths E w Hm Ht; try congruence;
    rewrite Hm, Ht; simpl; repeat split; reflexivity.
Qed.

Lemma step_failure_needs_driver E w e :
  fst (main E w) = Raise e ->
  e = NavigationError \/ e = AssertionTimeout \/
  (exists k, e = StrictModeViolation k) \/ e = IOError ->
  driver_starts E = true.
Proof.
  intros He Hclass.
  destruct (driver_starts E) eqn:Hd; [reflexivity|].
  paths E w Hm Ht; try congruence.
  rewrite Hm in He. simpl in He. injection He as <-.
  destruct Hclass as [?|[?|[[k ?]|?]]]; discriminate.
Qed.

(** C2. Whichever of navigation, assertion or capture raises, the release
    still happens, through the exit of the [with] block rather than through
    line 19, which is not reached: afterwards the driver is down and no
    browser, context or page is left, the journal ends with the stop of the
    driver, and every browser process that was spawned has exited. *)
Theorem teardown_after_step_failure E w e :
  fst (main E w) = Raise e ->
  e = NavigationError \/ e = AssertionTimeout \/
  (exists k, e = StrictModeViolation k) \/ e = IOError ->
  browsers (sess (snd (main E w))) = [] /\
  contexts (sess (snd (main E w))) = [] /\
  pages (sess (snd (main E w))) = [] /\
  driver_up (sess (snd (main E w))) = false /\
  last (calls (trace E w)) = Some CStop /\
  spawned (trace E w) = exited (trace E w) /\
  List.filter is_close (calls (trace E w)) = [].
Proof.
  intros He Hclass.
  pose proof (step_failure_needs_driver E w e He Hclass) as Hd.
  destruct (started_run_is_released E w Hd) as (Hb & Hc & Hp & Hu & Hl & Hx).
  repeat (split; [assumption|]).
  revert He.
  paths E w Hm Ht; rewrite Hm, Ht; simpl; try reflexivity.
  discriminate.
Qed.

Lemma teardown_after_step_failure_witness :
  (fst (main offline stale_world) = Raise NavigationError /\
   browsers (sess (snd (main offline stale_world))) = [] /\
   spawned (trace offline stale_world) = exited (trace offline stale_world))
  /\
  (fst (main spinner_only empty_world) = Raise AssertionTimeout /\
   browsers (sess (snd (main spinner_only empty_world))) = [] /\
   spawned (trace spinner_only empty_world) =
   exited (trace spinner_only empty_world))
  /\
  (fst (main read_only empty_world) = Raise IOError /\
   browsers (sess (snd (main read_only empty_world))) = [] /\
   spawned (trace read_only empty_world) =
   exited (trace read_only empty_world)).
Proof.
  split; [|split].
  - split; [reflexivity|].
    destruct (teardown_after_step_failure offline stale_world NavigationError)
      as (Hb & _ & _ & _ & _ & Hx & _);
      [reflexivity | left; reflexivity | split; assumption].
  - split; [reflexivity|].
    destruct (teardown_after_step_failure spinner_only empty_world
                AssertionTimeout)
      as (Hb & _ & _ & _ & _ & Hx & _);
      [reflexivity | right; left; reflexivity | split; assumption].
  - split; [reflexivity|].
    destruct (teardown_after_step_failure read_only empty_world IOError)
      as (Hb & _ & _ & _ & _ & Hx & _);
      [reflexivity | right; right; right; reflexivity | split; assumption].
Defined.

(** ** C3 *)

(** C3. When navigation to the target fails, the run exits with a nonzero
    code, never reaches the capture call, and leaves the whole file system,
    so also whatever was at the screenshot path, exactly as it was. *)
Theorem unreachable_target_leaves_files E w :
  site E target_url = None ->
  fst (script E w) <> 0 /\
  List.filter is_screenshot (calls (trace E w)) = [] /\
  writes (trace E w) = [] /\
  files (snd (script E w)) = files w /\
  files (snd (script E w)) !! screenshot_path = files w !! screenshot_path.
Proof.
  intros Hs. rewrite script_main. simpl.
  paths E w Hm Ht; try congruence;
    rewrite Hm, Ht; simpl; repeat split; discriminate.
Qed.

Lemma unreachable_target_leaves_files_witness :
  fst (script offline stale_world) <> 0 /\
  files (snd (script offline stale_world)) !! screenshot_path =
  Some [x00; x01].
Proof.
  destruct (unreachable_target_leaves_files offline stale_world)
    as (Hx & _ & _ & _ & Hf); [reflexivity|].
  split; [exact Hx|]. rewrite Hf. reflexivity.
Defined.

(** ** C4 *)



(** ** C5 *)

Lemma starts_with_spec needle hay :
  starts_with needle hay = true <-> exists post, hay = String.append needle post.
Proof.
  revert hay. induction needle as [|a n IH]; intros hay; simpl.
  - split; [intros _; exists hay; reflexivity | reflexivity].
  - destruct hay as [|b h].
    + split; [discriminate | intros [post H]; discriminate].
    + rewrite andb_true_iff, Ascii.eqb_eq, IH. split.
      * intros [-> [post ->]]. exists post. reflexivity.
      * intros [post H]. injection H as -> ->. split; [reflexivity|].
        exists post. reflexivity.
Qed.

Lemma includes_spec needle hay :
  includes needle hay = true <->
  exists pre post, hay = String.append pre (String.append needle post).
Proof.
  induction hay as [|b h IH]; simpl; rewrite orb_true_iff, starts_with_spec.
  - split.
    + intros [[post H]|H]; [|discriminate].
      exists EmptyString, post. exact H.
    + intros [pre [post H]]. left. destruct pre as [|c pre].
      * exists post. exact H.
      * discriminate.
  - rewrite IH. split.
    + intros [[post H]|[pre [post H]]].
      * exists EmptyString, post. exact H.
      * exists (String b pre), post. simpl. rewrite H. reflexivity.
    + intros [pre [post H]]. destruct pre as [|c pre].
      * left. exists post. exact H.
      * right. simpl in H. injection H as -> ->. exists pre, post. reflexivity.
Qed.

Lemma to_upper_append a b :
  to_upper (String.append a b) = String.append (to_upper a) (to_upper b).
Proof.
  induction a as [|c a IH]; simpl; [reflexivity|]. rewrite IH. reflexivity.
Qed.

(** C5, as the code has it. Line 13 passes a role and a name and no [exact]
    flag, so the locator is satisfied by exactly the elements of role
    "heading" whose accessible name contains "AI Agent Build:", letter case
    ignored; in particular a heading whose name merely contains the string is
    matched. *)
Theorem heading_locator_matches_by_containment (e : element) :
  q_exact heading_query = None /\
  (Playwright.query_matches heading_query e = true <->
   role e = "heading" /\
   exists pre post,
     to_upper (accessible_name e) =
     String.append pre (String.append (to_upper heading_name) post)) /\
  (role e = "heading" ->
   (exists pre post,
      accessible_name e =
      String.append pre (String.append heading_name post)) ->
   Playwright.query_matches heading_query e = true).
Proof.
  assert (Hiff : Playwright.query_matches heading_query e = true <->
            role e = "heading" /\
            exists pre post,
              to_upper (accessible_name e) =
              String.append pre (String.append (to_upper heading_name) post)).
  { unfold Playwright.query_matches, Playwright.name_matches.
    cbn [q_role q_name q_exact heading_query default Playwright.default_exact].
    rewrite andb_true_iff, String.eqb_eq, includes_spec.
    split; intros [H1 H2]; (split; [symmetry; exact H1 | exact H2]). }
  split; [reflexivity|]. split; [exact Hiff|].
  intros Hrole (pre & post & Hname). apply Hiff. split; [exact Hrole|].
  exists (to_upper pre), (to_upper post).
  rewrite Hname, !to_upper_append. reflexivity.
Qed.

Lemma heading_locator_matches_by_containment_witness :
  Playwright.query_matches heading_query long_heading = true.
Proof.
  apply (heading_locator_matches_by_containment long_heading).
  - reflexivity.
  - exists EmptyString, " Checkout Flow". reflexivity.
Defined.

(** A page whose only heading is "AI Agent Build: Checkout Flow": the name
    contains the queried string without being equal to it, the locator is
    satisfied all the same, and the run goes through to exit code 0. *)
Lemma longer_heading_satisfies_locator :
  role long_heading = "heading" /\
  accessible_name long_heading <> heading_name /\
  includes heading_name (accessible_name long_heading) = true /\
  Playwright.query_matches heading_query long_heading = true /\
  Playwright.resolve heading_query (page_of [long_heading; chat_box]) =
  [long_heading] /\
  fst (script long_title empty_world) = 0.
Proof.
  repeat split; try reflexivity. discriminate.
Qed.

(** ** C6 *)

(** C6. The calls of a run are the start of the driver, then an initial
    segment of the fixed sequence launch, new context, new page, goto,
    expect, screenshot, close, cut where an operation raised, then the stop
    of the driver; no call occurs twice.  (If the driver itself cannot start
    nothing else is called.) *)
Theorem control_flow_is_linear E w :
  List.NoDup (calls (trace E w)) /\
  (calls (trace E w) = [CStart] \/
   exists k,
     calls (trace E w) =
     CStart :: firstn k (plan (next_handle (sess w))) ++ [CStop]) /\
  (fst (script E w) = 0 <->
   calls (trace E w) = CStart :: plan (next_handle (sess w)) ++ [CStop]).
Proof.
  rewrite script_main.
  paths E w Hm Ht; rewrite Hm, Ht; simpl; (split; [|split]).
  all: try (repeat constructor; cbn; intuition discriminate).
  all: try (split; discriminate).
  all: try (left; reflexivity).
  - right. exists 1%nat. reflexivity.
  - right. exists 2%nat. reflexivity.
  - right. exists 3%nat. reflexivity.
  - right. exists 4%nat. reflexivity.
  - right. exists 5%nat. reflexivity.
  - right. exists 6%nat. reflexivity.
  - right. exists 7%nat. reflexivity.
Qed.

Lemma control_flow_is_linear_witness :
  calls (trace healthy empty_world) = CStart :: plan 0 ++ [CStop] /\
  List.NoDup (calls (trace offline empty_world)).
Proof.
  split.
  - apply (control_flow_is_linear healthy empty_world). reflexivity.
  - apply (control_flow_is_linear offline empty_world).
Defined.

(** ** C7 *)

Lemma success_shape E w :
  fst (script E w) = 0 ->
  exists d,
    site E target_url = Some d /\
    files (snd (script E w)) =
    <[screenshot_path := png_encode (viewport_pixels d)]> (files w) /\
    writes (trace E w) = [screenshot_path].
Proof.
  rewrite script_main. simpl.
  paths E w Hm Ht; rewrite Hm, Ht; simpl; try discriminate.
  intros _. exists d. repeat split. assumption.
Qed.

(** C7. Two successful runs in a row each write once, to the same fixed
    path; the second write replaces the first, so the files after both runs
    are the files a single run of the second would have left, no file name
    is added by the second run, and when both runs are served the same page
    the file system after two runs equals the file system after one. *)
Theorem rerun_overwrites_in_place E1 E2 w :
  fst (script E1 w) = 0 ->
  fst (script E2 (snd (script E1 w))) = 0 ->
  writes (trace E1 w) = [screenshot_path] /\
  writes (trace E2 (snd (script E1 w))) = [screenshot_path] /\
  files (snd (script E2 (snd (script E1 w)))) = files (snd (script E2 w)) /\
  dom (files (snd (script E2 (snd (script E1 w))))) =
  dom (files (snd (script E1 w))) /\
  (site E1 target_url = site E2 target_url ->
   files (snd (script E2 (snd (script E1 w)))) = files (snd (script E1 w))).
Proof.
  intros H1 H2.
  destruct (success_shape E1 w H1) as (d1 & Hs1 & Hf1 & Hw1).
  destruct (success_shape E2 _ H2) as (d2 & Hs2 & Hf2 & Hw2).
  assert (H2' : fst (script E2 w) = 0).
  { revert H2. rewrite !script_main. simpl.
    paths E2 w Hm Ht; paths E2 (snd (main E1 w)) Hm' Ht';
      rewrite Hm, Hm'; simpl; congruence. }
  destruct (success_shape E2 w H2') as (d2' & Hs2' & Hf2' & _).
  assert (d2' = d2) by congruence. subst d2'.
  split; [exact Hw1|]. split; [exact Hw2|].
  rewrite Hf2, Hf1, Hf2'. rewrite insert_insert_eq.
  split; [reflexivity|]. split.
  - rewrite !dom_insert_L. set_solver.
  - intros Hsame. assert (d1 = d2) by congruence. subst. reflexivity.
Qed.

Lemma rerun_overwrites_in_place_witness :
  files (snd (script healthy (snd (script healthy stale_world)))) =
  files (snd (script healthy stale_world)) /\
  files (snd (script long_title (snd (script healthy stale_world)))) =
  files (snd (script long_title stale_world)).
Proof.
  split.
  - destruct (rerun_overwrites_in_place healthy healthy stale_world)
      as (_ & _ & _ & _ & Hsame); [reflexivity | reflexivity |].
    apply Hsame. reflexivity.
  - destruct (rerun_overwrites_in_place healthy long_title stale_world)
      as (_ & _ & Hone & _); [reflexivity | reflexivity |].
    exact Hone.
Defined.

(** ** C8 *)

(** C8. Whatever the environment answers, a run touches no file other than
    the screenshot path and no environment variable; it writes at most once,
    and exactly once, to that path, when it succeeds; it spawns at most one
    browser process and every process it spawned has exited when it ends;
    the session it leaves is either the one it found (the driver never
    started) or a closed one without browser, context or page. *)
Theorem side_effects_are_confined E w :
  (forall f, f <> screenshot_path ->
     files (snd (main E w)) !! f = files w !! f) /\
  environ (snd (main E w)) = environ w /\
  (writes (trace E w) = [] /\ files (snd (main E w)) = files w \/
   writes (trace E w) = [screenshot_path]) /\
  (fst (script E w) = 0 <-> writes (trace E w) = [screenshot_path]) /\
  (List.length (spawned (trace E w)) <= 1)%nat /\
  spawned (trace E w) = exited (trace E w) /\
  (sess (snd (main E w)) = sess w \/
   exists used, sess (snd (main E w)) = released w used).
Proof.
  rewrite script_main.
  paths E w Hm Ht; rewrite Hm, Ht; simpl.
  all: split; [intros f Hf; try reflexivity|].
  all: try (apply lookup_insert_ne; congruence).
  all: split; [reflexivity|].
  all: split; [first [left; split; reflexivity | right; reflexivity]|].
  all: split; [split; first [discriminate | reflexivity]|].
  all: split; [lia|].
  all: split; [reflexivity|].
  all: first [left; reflexivity | right; eexists; reflexivity].
Qed.

Lemma side_effects_are_confined_witness :
  files (snd (main healthy stale_world)) !! "notes.txt" =
  files stale_world !! "notes.txt" /\
  writes (trace healthy stale_world) = [screenshot_path].
Proof.
  destruct (side_effects_are_confined healthy stale_world)
    as (Hframe & _ & _ & Hone & _).
  split.
  - apply Hframe. discriminate.
  - apply Hone. reflexivity.
Defined.

(** ** C9 *)

(** C9. The one screenshot call of a successful run carries the output path
    and no [full_page] option, which the library reads as "viewport only":
    the file written is the PNG of the page's viewport. *)
Theorem screenshot_is_viewport_only E w :
  fst (script E w) = 0 ->
  exists d,
    site E target_url = Some d /\
    List.filter is_screenshot (calls (trace E w)) =
    [CScreenshot (S (S (next_handle (sess w)))) shot_args] /\
    shot_path shot_args = Some screenshot_path /\
    shot_full_page shot_args = None /\
    default Playwright.default_full_page (shot_full_page shot_args) = false /\
    files (snd (script E w)) !! screenshot_path =
    Some (png_encode (viewport_pixels d)).
Proof.
  rewrite script_main. simpl.
  paths E w Hm Ht; rewrite Hm, Ht; simpl; try discriminate.
  intros _. exists d. repeat split; try assumption.
  apply lookup_insert_eq.
Qed.

Lemma screenshot_is_viewport_only_witness :
  exists d,
    site healthy target_url = Some d /\
    files (snd (script healthy empty_world)) !! screenshot_path =
    Some (png_encode (viewport_pixels d)) /\
    viewport_pixels d <> full_page_pixels d.
Proof.
  destruct (screenshot_is_viewport_only healthy empty_world)
    as (d & Hs & _ & _ & _ & _ & Hf); [reflexivity|].
  exists d. split; [exact Hs|]. split; [exact Hf|].
  injection Hs as <-. discriminate.
Defined.

(** ** C10 *)

(** C10. On the page the target serves, a query that resolves to more than
    one heading makes the run fail, with a strict-mode violation when the run
    gets as far as the assertion, and the screenshot call is not made; a run
    that does make the screenshot call had exactly one heading matching the
    role-and-name query. *)
Theorem ambiguous_heading_fails E w d :
  site E target_url = Some d ->
  ((1 < List.length (Playwright.resolve heading_query d))%nat ->
   fst (script E w) = 1 /\
   List.filter is_screenshot (calls (trace E w)) = [] /\
   (browser_available E = true ->
    fst (main E w) =
    Raise (StrictModeViolation
             (List.length (Playwright.resolve heading_query d))))) /\
  (List.filter is_screenshot (calls (trace E w)) <> [] ->
   List.length (Playwright.resolve heading_query d) = 1%nat).
Proof.
  intros Hs. rewrite script_main.
  assert (Hmany :
    (1 < List.length (Playwright.resolve heading_query d))%nat ->
    Playwright.check_visible Playwright.default_expect_timeout
      (Playwright.resolve heading_query d) =
    Some (StrictModeViolation
            (List.length (Playwright.resolve heading_query d)))).
  { destruct (Playwright.resolve heading_query d) as [|h [|h' rest]];
      simpl; intros Hlen; try lia. reflexivity. }
  assert (Hone :
    Playwright.check_visible Playwright.default_expect_timeout
      (Playwright.resolve heading_query d) = None ->
    List.length (Playwright.resolve heading_query d) = 1%nat).
  { intros Hk. apply check_visible_passes in Hk as (h & -> & _).
    reflexivity. }
  paths E w Hm Ht; rewrite Hm, Ht; simpl;
    try (assert (d0 = d) by congruence; subst d0).
  all: split;
    [ intros Hlen; specialize (Hmany Hlen);
      first [ congruence
            | repeat split; try reflexivity;
              rewrite browser_available_true; intros; intuition congruence ]
    | intros Hshot; first [ congruence | apply Hone; assumption ] ].
Qed.

Lemma ambiguous_heading_fails_witness :
  (fst (main two_titles empty_world) = Raise (StrictModeViolation 2) /\
   fst (script two_titles empty_world) = 1) /\
  List.length
    (Playwright.resolve heading_query (page_of [main_heading; chat_box]))
  = 1%nat.
Proof.
  split.
  - destruct (ambiguous_heading_fails two_titles empty_world
                (page_of [main_heading; long_heading]))
      as [Hmany _]; [reflexivity|].
    destruct Hmany as (Hx & _ & He); [vm_compute; lia|].
    split; [apply He; reflexivity | exact Hx].
  - destruct (ambiguous_heading_fails healthy empty_world
                (page_of [main_heading; chat_box]))
      as [_ Hone]; [reflexivity|].
    apply Hone. discriminate.
Defined.

(** * Further properties of the script *)

(** ** When the script passes *)

(** X1. The exit code is 0 exactly when the environment provides the
    browser, the target serves a page on which the heading query resolves to
    a single heading that is visible within the default window, and the
    output path can be written: a pass is evidence of all of these. *)
Theorem exit_zero_iff E w :
  fst (script E w) = 0 <->
  browser_available E = true /\
  writable E screenshot_path = true /\
  exists d h,
    site E target_url = Some d /\
    Playwright.resolve heading_query d = [h] /\
    Playwright.visible_within Playwright.default_expect_timeout h = true.
Proof.
  rewrite script_main. split.
  - paths E w Hm Ht; rewrite Hm; simpl; try discriminate.
    intros _. rewrite browser_available_true.
    match goal with
    | H : Playwright.check_visible _ _ = None |- _ =>
        apply check_visible_passes in H as (h & Hr & Hv)
    end.
    repeat split; try assumption. exists d, h. repeat split; assumption.
  - intros (Hb & Hw & d & h & Hs & Hr & Hv).
    apply browser_available_true in Hb as (Hd & Hl & Hc & Hp).
    assert (Hk : Playwright.check_visible Playwright.default_expect_timeout
                   (Playwright.resolve heading_query d) = None)
      by (rewrite Hr; apply check_visible_single; exact Hv).
    paths E w Hm Ht; rewrite Hm; simpl; congruence.
Qed.

Lemma exit_zero_iff_witness :
  writable long_title screenshot_path = true /\
  exists d h,
    site long_title target_url = Some d /\
    Playwright.resolve heading_query d = [h] /\
    Playwright.visible_within Playwright.default_expect_timeout h = true.
Proof.
  apply (proj1 (exit_zero_iff long_title empty_world)). reflexivity.
Defined.

(** ** What a failing run leaves behind *)

Lemma failure_keeps_files E w :
  fst (script E w) <> 0 ->
  files (snd (script E w)) = files w /\ writes (trace E w) = [].
Proof.
  rewrite script_main. simpl.
  paths E w Hm Ht; rewrite Hm, Ht; simpl; intros Hne;
    first [ split; reflexivity | exfalso; apply Hne; reflexivity ].
Qed.

(** X2. A run that fails, at whatever step, writes nothing and leaves every
    file as it was: a screenshot of an earlier run stays in place, byte for
    byte, so its presence says nothing about the run that just failed. *)
Theorem failed_run_keeps_old_screenshot E w old :
  fst (script E w) <> 0 ->
  files w !! screenshot_path = Some old ->
  files (snd (script E w)) = files w /\
  files (snd (script E w)) !! screenshot_path = Some old /\
  writes (trace E w) = [].
Proof.
  intros Hne Hold.
  destruct (failure_keeps_files E w Hne) as [Hf Hw].
  rewrite Hf. repeat split; assumption.
Qed.

Lemma failed_run_keeps_old_screenshot_witness :
  files (snd (script read_only stale_world)) !! screenshot_path =
  Some [x00; x01].
Proof.
  apply (failed_run_keeps_old_screenshot read_only stale_world [x00; x01]).
  - discriminate.
  - reflexivity.
Defined.

(** ** Independence of earlier state *)

Lemma outcome_depends_on_env_only E w1 w2 :
  fst (main E w1) = fst (main E w2).
Proof.
  paths E w1 Hm Ht; paths E w2 Hm' Ht'; rewrite Hm, Hm'; simpl;
    congruence.
Qed.

Lemma files_depend_on_files_only E w1 w2 :
  files w1 = files w2 ->
  files (snd (main E w1)) = files (snd (main E w2)).
Proof.
  intros Hf.
  paths E w1 Hm Ht; paths E w2 Hm' Ht'; rewrite Hm, Hm'; simpl;
    congruence.
Qed.

(** X4. A failed run leaves no residue for the next one: running the script
    after a failed run gives the exit code and the files that running it
    alone would have given. *)
Theorem run_after_failure_as_if_alone E1 E2 w :
  fst (script E1 w) <> 0 ->
  fst (script E2 (snd (script E1 w))) = fst (script E2 w) /\
  files (snd (script E2 (snd (script E1 w)))) = files (snd (script E2 w)).
Proof.
  intros Hne.
  destruct (failure_keeps_files E1 w Hne) as [Hf _].
  rewrite !script_main in *. simpl in *. split.
  - rewrite (outcome_depends_on_env_only E2 _ w). reflexivity.
  - apply files_depend_on_files_only. exact Hf.
Qed.

Lemma run_after_failure_as_if_alone_witness :
  fst (script healthy (snd (script offline stale_world))) = 0 /\
  files (snd (script healthy (snd (script offline stale_world)))) =
  files (snd (script healthy stale_world)).
Proof.
  destruct (run_after_failure_as_if_alone offline healthy stale_world)
    as [Hc Hf]; [discriminate|].
  split; [rewrite Hc; reflexivity | exact Hf].
Defined.

(** ** Which error a run reports *)

(** X5. The steps fail in program order, so the error tells the step: the
    run raises [NavigationError] exactly when browser, context and page were
    obtained and the target cannot be reached, whatever the page would have
    shown and whether or not the output path is writable. *)
Theorem navigation_error_iff E w :
  fst (main E w) = Raise NavigationError <->
  browser_available E = true /\ site E target_url = None.
Proof.
  split.
  - paths E w Hm Ht; rewrite Hm; simpl; try discriminate.
    + intros _. rewrite browser_available_true. repeat split; assumption.
    + intros He. exfalso.
      match goal with
      | H : Playwright.check_visible _ ?l = Some _ |- _ =>
          destruct l as [|h [|h' rest]]; simpl in H;
          [| destruct (Playwright.visible_within _ h) |]; congruence
      end.
  - intros [Hb Hs].
    apply browser_available_true in Hb as (Hd & Hl & Hc & Hp).
    paths E w Hm Ht; rewrite Hm; simpl; congruence.
Qed.

Lemma navigation_error_iff_witness :
  fst (main (serving None false) empty_world) = Raise NavigationError.
Proof.
  apply (proj2 (navigation_error_iff (serving None false) empty_world)).
  split; reflexivity.
Defined.

(** X6. An unwritable output path is only found out at the end: the run
    raises [IOError] exactly when everything up to the assertion went
    through and the path cannot be written, and then the screenshot call was
    made but no file was written or changed. *)
Theorem io_error_iff E w :
  (fst (main E w) = Raise IOError <->
   browser_available E = true /\
   writable E screenshot_path = false /\
   exists d h,
     site E target_url = Some d /\
     Playwright.resolve heading_query d = [h] /\
     Playwright.visible_within Playwright.default_expect_timeout h = true) /\
  (fst (main E w) = Raise IOError ->
   List.filter is_screenshot (calls (trace E w)) =
   [CScreenshot (S (S (next_handle (sess w)))) shot_args] /\
   writes (trace E w) = [] /\
   files (snd (main E w)) = files w).
Proof.
  split; [split|].
  - paths E w Hm Ht; rewrite Hm; simpl; try discriminate.
    + intros He. exfalso.
      match goal with
      | H : Playwright.check_visible _ ?l = Some _ |- _ =>
          destruct l as [|h [|h' rest]]; simpl in H;
          [| destruct (Playwright.visible_within _ h) |]; congruence
      end.
    + intros _. rewrite browser_available_true.
      match goal with
      | H : Playwright.check_visible _ _ = None |- _ =>
          apply check_visible_passes in H as (h & Hr & Hv)
      end.
      repeat split; try assumption. exists d, h. repeat split; assumption.
  - intros (Hb & Hw & d & h & Hs & Hr & Hv).
    apply browser_available_true in Hb as (Hd & Hl & Hc & Hp).
    assert (Hk : Playwright.check_visible Playwright.default_expect_timeout
                   (Playwright.resolve heading_query d) = None)
      by (rewrite Hr; apply check_visible_single; exact Hv).
    paths E w Hm Ht; rewrite Hm; simpl; congruence.
  - paths E w Hm Ht; rewrite Hm, Ht; simpl; try discriminate.
    + intros He. exfalso.
      match goal with
      | H : Playwright.check_visible _ ?l = Some _ |- _ =>
          destruct l as [|h [|h' rest]]; simpl in H;
          [| destruct (Playwright.visible_within _ h) |]; congruence
      end.
    + intros _. repeat split.
Qed.

Lemma io_error_iff_witness :
  writes (trace read_only stale_world) = [] /\
  files (snd (main read_only stale_world)) = files stale_world.
Proof.
  destruct (io_error_iff read_only stale_world) as [_ Hkeep].
  destruct Hkeep as (_ & Hw & Hf); [reflexivity|].
  split; assumption.
Defined.

(** ** The [with] statement when the driver cannot start *)

(** X7. If [sync_playwright()] cannot be entered, the body of the block and
    its exit are both skipped: [run] is never called, nothing is launched or
    stopped, the exit code is 1 and files, environment and session are the
    ones the run found. *)
Theorem driver_failure_skips_block E w :
  driver_starts E = false ->
  fst (script E w) = 1 /\
  calls (trace E w) = [CStart] /\
  spawned (trace E w) = [] /\
  files (snd (main E w)) = files w /\
  environ (snd (main E w)) = environ w /\
  sess (snd (main E w)) = sess w.
Proof.
  intros Hd. rewrite script_main.
  paths E w Hm Ht; try congruence.
  rewrite Hm, Ht. simpl. repeat split.
Qed.

Lemma driver_failure_skips_block_witness :
  fst (script no_driver stale_world) = 1 /\
  calls (trace no_driver stale_world) = [CStart].
Proof.
  destruct (driver_failure_skips_block no_driver stale_world)
    as (Hx & Hc & _); [reflexivity|].
  split; assumption.
Defined.

(** ** [run] outside the [with] block *)

Ltac run_alone w Hup Hbs Hcs Hps :=
  unfold run_trace;
  unfold run, Playwright.launch, Playwright.new_context,
    Playwright.new_page, Playwright.goto, Playwright.expect_to_be_visible,
    Playwright.screenshot, Playwright.close, Playwright.get_by_role,
    emit, modify, raise, ret, seq, bind;
  cbn -[Playwright.resolve Playwright.check_visible png_encode insert
        screenshot_path target_url heading_name drop];
  rewrite ?Hup, ?Hbs, ?Hcs, ?Hps;
  crunch w.

Ltac next_step w c :=
  destruct c eqn:?; crunch w.

Ltac read_journal :=
  cbn [journal snd fst]; rewrite <- ?app_assoc; rewrite ?drop_app_length;
  cbn.

(** X8. [run] has no [finally]: when navigation, assertion or capture
    raises, line 19 is not reached and [run] returns with the browser it
    launched still running, together with its context and page, and no
    process has exited.  Only the caller's [with] block ends it. *)
Theorem run_alone_leaves_browser_on_failure E w e :
  clean_driver w ->
  fst (run E tt w) = Raise e ->
  e = NavigationError \/ e = AssertionTimeout \/
  (exists k, e = StrictModeViolation k) \/ e = IOError ->
  browsers (sess (snd (run E tt w))) = [next_handle (sess w)] /\
  List.length (contexts (sess (snd (run E tt w)))) = 1%nat /\
  List.length (pages (sess (snd (run E tt w)))) = 1%nat /\
  spawned (run_trace E w) = [next_handle (sess w)] /\
  exited (run_trace E w) = [] /\
  List.filter is_close (calls (run_trace E w)) = [].
Proof.
  intros (Hup & Hbs & Hcs & Hps) He Hclass. revert He.
  assert (Hno : forall x, x = LaunchError \/ x = TargetClosed ->
                  @Raise unit x = Raise e -> False).
  { intros x Hx Heq. injection Heq as <-.
    destruct Hx as [->| ->];
      destruct Hclass as [?|[?|[[k ?]|?]]]; discriminate. }
  run_alone w Hup Hbs Hcs Hps.
  next_step w (launches E Chromium).
  2: { intros He. exfalso. eapply Hno; [left; reflexivity | exact He]. }
  next_step w (context_opens E).
  2: { intros He. exfalso. eapply Hno; [left; reflexivity | exact He]. }
  next_step w (page_opens E).
  2: { intros He. exfalso. eapply Hno; [left; reflexivity | exact He]. }
  destruct (site E target_url) as [d|] eqn:Hs; crunch w.
  2: { intros _. rewrite Hbs, Hcs, Hps. read_journal. repeat split. }
  destruct (Playwright.check_visible Playwright.default_expect_timeout
              (Playwright.resolve
                 {| q_role := "heading"; q_name := Some heading_name;
                    q_exact := None |} d)) as [x|] eqn:Hv; crunch w.
  { intros _. rewrite Hbs, Hcs, Hps. read_journal. repeat split. }
  next_step w (writable E screenshot_path).
  - discriminate.
  - intros _. rewrite Hbs, Hcs, Hps. read_journal. repeat split.
Qed.

Lemma run_alone_leaves_browser_on_failure_witness :
  browsers (sess (snd (run offline tt started_world))) = [7%nat] /\
  exited (run_trace offline started_world) = [].
Proof.
  destruct (run_alone_leaves_browser_on_failure offline started_world
              NavigationError) as (Hb & _ & _ & _ & Hx & _).
  - repeat split.
  - reflexivity.
  - left. reflexivity.
  - split; assumption.
Defined.

(** X9. When [run] returns normally it has closed what it opened: the
    browser it launched has exited through line 19, and the session holds no
    browser, context or page, so the block exit finds nothing left to end. *)
Theorem run_alone_closes_browser_on_success E w :
  clean_driver w ->
  fst (run E tt w) = Return tt ->
  browsers (sess (snd (run E tt w))) = [] /\
  contexts (sess (snd (run E tt w))) = [] /\
  pages (sess (snd (run E tt w))) = [] /\
  driver_up (sess (snd (run E tt w))) = true /\
  spawned (run_trace E w) = [next_handle (sess w)] /\
  exited (run_trace E w) = [next_handle (sess w)] /\
  last (calls (run_trace E w)) = Some (CClose (next_handle (sess w))).
Proof.
  intros (Hup & Hbs & Hcs & Hps).
  run_alone w Hup Hbs Hcs Hps.
  next_step w (launches E Chromium); [|discriminate].
  next_step w (context_opens E); [|discriminate].
  next_step w (page_opens E); [|discriminate].
  destruct (site E target_url) as [d|] eqn:Hs; crunch w; [|discriminate].
  destruct (Playwright.check_visible Playwright.default_expect_timeout
              (Playwright.resolve
                 {| q_role := "heading"; q_name := Some heading_name;
                    q_exact := None |} d)) as [x|] eqn:Hv; crunch w;
    [discriminate|].
  next_step w (writable E screenshot_path); [|discriminate].
  intros _. unfold Playwright.drop_browser. crunch w.
  rewrite Hbs, Hcs, Hps, ?Hup. read_journal.
  rewrite ?(Nat.eqb_refl (next_handle (sess w))). cbn. repeat split.
Qed.

Lemma run_alone_closes_browser_on_success_witness :
  browsers (sess (snd (run healthy tt started_world))) = [] /\
  exited (run_trace healthy started_world) = [7%nat].
Proof.
  destruct (run_alone_closes_browser_on_success healthy started_world)
    as (Hb & _ & _ & _ & _ & Hx & _).
  - repeat split.
  - reflexivity.
  - split; assumption.
Defined.
